(** * Home Assistant adapters: A. O. Smith sensors and the SignalRGB light

    A shallow embedding of [homeassistant/components/aosmith/sensor.py] and of
    the light entity exercised by [tests/components/signalrgb/test_light.py],
    with the properties the specification states about them. *)

From Stdlib Require Import ZArith PrimFloat Ascii.
From stdpp Require Import gmap strings list fin_maps.

Open Scope string_scope.
Open Scope list_scope.

(** ** What a Python call yields: a value, or a raised exception *)

Inductive Raised : Type :=
  | KeyError (key : string)
  | VendorError (message : string).

Inductive Outcome (A : Type) : Type :=
  | Returns (value : A)
  | Raises (exc : Raised).
Arguments Returns {A} value.
Arguments Raises {A} exc.

(** ** The A. O. Smith sensor platform *)

Module AOSmith.

(** [py_aosmith.models.Device], restricted to the attributes the platform
    reads: [device.status.hot_water_status]. *)
Record DeviceStatus : Type := { hot_water_status : option Z }.
Record AOSmithDevice : Type := { status : DeviceStatus }.

(** The values a status sensor may show, [str | int | None]; [None] is the
    [option] around it. *)
Inductive StateValue : Type :=
  | StrValue (s : string)
  | IntValue (n : Z).

(** [homeassistant.const]: the host's unit names.  How they are spelled plays
    no role below. *)
Definition PERCENTAGE : string := "%".
Module UnitOfEnergy.
Definition KILO_WATT_HOUR : string := "kWh".
End UnitOfEnergy.

(** [homeassistant.components.sensor] enumerations, with some of their
    members. *)
Inductive SensorDeviceClass : Type := ENERGY | TEMPERATURE | POWER.
Inductive SensorStateClass : Type := MEASUREMENT | TOTAL | TOTAL_INCREASING.

(** [AOSmithStatusSensorEntityDescription]: a sensor description with the
    extraction function [value_fn]. *)
Record AOSmithStatusSensorEntityDescription : Type := {
  key : string;
  translation_key : string;
  native_unit_of_measurement : option string;
  value_fn : AOSmithDevice -> option StateValue
}.

Definition hot_water_availability : AOSmithStatusSensorEntityDescription :=
  {| key := "hot_water_availability";
     translation_key := "hot_water_availability";
     native_unit_of_measurement := Some PERCENTAGE;
     value_fn := fun device => IntValue <$> hot_water_status (status device) |}.

Definition STATUS_ENTITY_DESCRIPTIONS : list AOSmithStatusSensorEntityDescription :=
  [ hot_water_availability ].

(** *** The shared coordinators

    Coordinators are objects owned by the host; entities keep a reference to
    one and read its [data] attribute anew at every access.  A reference is an
    object identity, and the heap gives each coordinator's current state. *)

Definition ref : Type := nat.

Module AOSmithStatusCoordinator.
Record t : Type := { data : gmap string AOSmithDevice }.
End AOSmithStatusCoordinator.

Module AOSmithEnergyCoordinator.
Record t : Type := { data : gmap string float }.
End AOSmithEnergyCoordinator.

Record Heap : Type := {
  status_coordinators : ref -> AOSmithStatusCoordinator.t;
  energy_coordinators : ref -> AOSmithEnergyCoordinator.t
}.

(** [entry.runtime_data]: the two coordinators of a config entry. *)
Record AOSmithData : Type := {
  status_coordinator : ref;
  energy_coordinator : ref
}.

Record AOSmithConfigEntry : Type := { runtime_data : AOSmithData }.

(** Modelled from the spec: the base classes of [entity.py], which is not part
    of the sources.  An entity holds a reference to a shared coordinator and
    the identifier of its device ([super().__init__(coordinator, junction_id)]);
    [device] and [energy_usage] look the identifier up in the coordinator's
    current mapping, and a Python dict raises [KeyError] on a missing key. *)
Module AOSmithEntity.
Record t : Type := { coordinator : ref; junction_id : string }.

Definition __init__ (coordinator : ref) (junction_id : string) : t :=
    {| coordinator := coordinator; junction_id := junction_id |}.

Definition subscript {V : Type} (d : gmap string V) (k : string) : Outcome V :=
    match d !! k with
    | Some v => Returns v
    | None => Raises (KeyError k)
    end.

Definition device (self : t) (h : Heap) : Outcome AOSmithDevice :=
    subscript
      (AOSmithStatusCoordinator.data (status_coordinators h (coordinator self)))
      (junction_id self).

Definition energy_usage (self : t) (h : Heap) : Outcome float :=
    subscript
      (AOSmithEnergyCoordinator.data (energy_coordinators h (coordinator self)))
      (junction_id self).
End AOSmithEntity.

(** *** [class AOSmithStatusSensorEntity] *)
Module AOSmithStatusSensorEntity.
Record t : Type := {
    base : AOSmithEntity.t;
    entity_description : AOSmithStatusSensorEntityDescription;
    _attr_unique_id : string
  }.

Definition __init__ (coordinator : ref)
      (description : AOSmithStatusSensorEntityDescription)
      (junction_id : string) : t :=
    {| base := AOSmithEntity.__init__ coordinator junction_id;
       entity_description := description;
       _attr_unique_id := key description +:+ "_" +:+ junction_id |}.

Definition native_value (self : t) (h : Heap) : Outcome (option StateValue) :=
    match AOSmithEntity.device (base self) h with
    | Returns device => Returns (value_fn (entity_description self) device)
    | Raises e => Raises e
    end.
End AOSmithStatusSensorEntity.

(** *** [class AOSmithEnergySensorEntity] *)
Module AOSmithEnergySensorEntity.
Record t : Type := {
    base : AOSmithEntity.t;
    _attr_unique_id : string
  }.

Definition _attr_translation_key : string := "energy_usage".
Definition _attr_device_class : SensorDeviceClass := ENERGY.
Definition _attr_state_class : SensorStateClass := TOTAL_INCREASING.
Definition _attr_native_unit_of_measurement : string :=
    UnitOfEnergy.KILO_WATT_HOUR.
Definition _attr_suggested_display_precision : Z := 1.

Definition __init__ (coordinator : ref) (junction_id : string) : t :=
    {| base := AOSmithEntity.__init__ coordinator junction_id;
       _attr_unique_id := "energy_usage_" +:+ junction_id |}.

Definition native_value (self : t) (h : Heap) : Outcome float :=
    AOSmithEntity.energy_usage (base self) h.
End AOSmithEnergySensorEntity.

(** What the platform hands to the host: entities of either class. *)
Inductive SensorEntity : Type :=
  | StatusSensor (e : AOSmithStatusSensorEntity.t)
  | EnergySensor (e : AOSmithEnergySensorEntity.t).

(** Iterating a dict yields its keys, each once. *)
Definition dict_keys {V : Type} (d : gmap string V) : list string :=
  (map_to_list d).*1.

(** *** [async_setup_entry]

    The host's registration callback is a parameter: it receives a batch of
    entities and updates the host's state. *)
Section Setup.
Context {Host : Type}.
Variable async_add_entities : list SensorEntity -> Host -> Host.

Definition status_entities (h : Heap) (data : AOSmithData) : list SensorEntity :=
    description ← STATUS_ENTITY_DESCRIPTIONS;
    junction_id ← dict_keys
      (AOSmithStatusCoordinator.data (status_coordinators h (status_coordinator data)));
    [StatusSensor
       (AOSmithStatusSensorEntity.__init__ (status_coordinator data) description junction_id)].

Definition energy_entities (h : Heap) (data : AOSmithData) : list SensorEntity :=
    junction_id ← dict_keys
      (AOSmithStatusCoordinator.data (status_coordinators h (status_coordinator data)));
    [EnergySensor
       (AOSmithEnergySensorEntity.__init__ (energy_coordinator data) junction_id)].

Definition async_setup_entry (h : Heap) (entry : AOSmithConfigEntry) (host : Host)
    : Host :=
  let data := runtime_data entry in
  let host := async_add_entities (status_entities h data) host in
  async_add_entities (energy_entities h data) host.
End Setup.

(** A host that only records the batches it is given, oldest first. *)
Definition record_batch (batch : list SensorEntity) (log : list (list SensorEntity))
    : list (list SensorEntity) :=
  log ++ [batch].

(** The device identifiers of the energy sensors among registered entities. *)
Definition energy_junction_ids (entities : list SensorEntity) : list string :=
  omap (fun e => match e with
                 | EnergySensor s =>
                     Some (AOSmithEntity.junction_id (AOSmithEnergySensorEntity.base s))
                 | StatusSensor _ => None
                 end) entities.

(** [entity.unique_id]: the host reads the identifier an entity's constructor
    stored in [_attr_unique_id]. *)
Definition unique_id (e : SensorEntity) : string :=
  match e with
  | StatusSensor s => AOSmithStatusSensorEntity._attr_unique_id s
  | EnergySensor s => AOSmithEnergySensorEntity._attr_unique_id s
  end.

(** Whether a string contains the separator the identifiers are built with. *)
Definition has_underscore (s : string) : bool :=
  bool_decide ("_"%char ∈ String.list_ascii_of_string s).

(** Sample data for worked examples: a device with a given hot-water level,
    and a heap in which every status coordinator holds [devices] and every
    energy coordinator holds [readings]. *)
Definition device_with (hot_water : option Z) : AOSmithDevice :=
  {| status := {| hot_water_status := hot_water |} |}.

Definition heap_of (devices : gmap string AOSmithDevice)
    (readings : gmap string float) : Heap :=
  {| status_coordinators := fun _ => {| AOSmithStatusCoordinator.data := devices |};
     energy_coordinators := fun _ => {| AOSmithEnergyCoordinator.data := readings |} |}.

Definition sample_entry : AOSmithConfigEntry :=
  {| runtime_data := {| status_coordinator := 0; energy_coordinator := 1 |} |}.

End AOSmith.

(** ** The SignalRGB light *)

Module SignalRGB.

(** The effect objects of the vendor client, restricted to what the light
    reads: [effect.attributes.name]. *)
Record EffectAttributes : Type := { name : string }.
Record Effect : Type := { attributes : EffectAttributes }.

(** [const.py] is not part of the sources: the two effect names the tests
    import from it are parameters of the development. *)
Class Constants : Type := {
  DEFAULT_EFFECT : string;
  ALL_OFF_EFFECT : string
}.

(** The vendor client: synchronous operations to list the effects, to get the
    current effect and to apply an effect by name.  Each call may change the
    client and the device behind it, and may raise. *)
Class SignalRGBClient (C : Type) : Type := {
  get_effects : C -> C * Outcome (list Effect);
  get_current_effect : C -> C * Outcome Effect;
  apply_effect_by_name : string -> C -> C * Outcome unit
}.

(** What [hass.async_add_executor_job] is called with: a method of the client
    and its arguments. *)
Inductive Job : Type :=
  | job_get_effects
  | job_get_current_effect
  | job_apply_effect_by_name (effect : string).

(** The entity's own state, under the names the tests read it by. *)
Record SignalRGBLight : Type := {
  is_on : bool;
  effect : option string;
  effect_list : list string
}.

(** The store an operation of the entity runs in: the entity ([self]), the
    client it holds ([self._client]) and the jobs handed to the executor so
    far, oldest first. *)
Record World (C : Type) : Type := {
  self : SignalRGBLight;
  _client : C;
  executor_jobs : list Job
}.
Arguments self {C} w.
Arguments _client {C} w.
Arguments executor_jobs {C} w.

(** A coroutine of the entity: it updates the store and returns or raises.
    What was assigned before an exception stays assigned. *)
Definition Async (C A : Type) : Type := World C -> World C * Outcome A.

#[export] Instance Async_ret {C : Type} : MRet (Async C) :=
  fun A (a : A) (w : World C) => (w, Returns a).

#[export] Instance Async_bind {C : Type} : MBind (Async C) :=
  fun A B (k : A -> Async C B) (m : Async C A) (w : World C) =>
    match m w with
    | (w', Returns a) => k a w'
    | (w', Raises e) => (w', Raises e)
    end.

Definition get_self {C : Type} : Async C SignalRGBLight :=
  fun w => (w, Returns (self w)).

Definition set_self {C : Type} (l : SignalRGBLight) : Async C unit :=
  fun w => ({| self := l; _client := _client w; executor_jobs := executor_jobs w |},
            Returns tt).

Definition set_is_on {C : Type} (b : bool) : Async C unit :=
  l ← get_self;
  set_self {| is_on := b; effect := effect l; effect_list := effect_list l |}.

Definition set_effect {C : Type} (e : option string) : Async C unit :=
  l ← get_self;
  set_self {| is_on := is_on l; effect := e; effect_list := effect_list l |}.

Definition set_effect_list {C : Type} (names : list string) : Async C unit :=
  l ← get_self;
  set_self {| is_on := is_on l; effect := effect l; effect_list := names |}.

(** [await self.hass.async_add_executor_job(target, *args)]: the job is
    recorded, the blocking call runs against the client, and its result or
    exception comes back to the caller. *)
Definition async_add_executor_job {C R : Type} (job : Job)
    (target : C -> C * Outcome R) : Async C R :=
  fun w =>
    let (c', r) := target (_client w) in
    ({| self := self w; _client := c'; executor_jobs := executor_jobs w ++ [job] |}, r).

(** The names of the effects the client lists, read as [test_effect_list]
    sets them: [effect.attributes.name]. *)
Definition names (effects : list Effect) : list string :=
  (fun e => name (attributes e)) <$> effects.

Section Light.
Context {C : Type} `{!SignalRGBClient C} `{!Constants}.

(** Modelled from the spec: [light.py] is not part of the sources.  Applying an
    effect issues the blocking call and then records the name as the current
    effect, with no confirmation from the device. *)
Definition _apply_effect (effect : string) : Async C unit :=
  async_add_executor_job (job_apply_effect_by_name effect) (apply_effect_by_name effect);;
  set_effect (Some effect).

(** Modelled from the spec: [light.py] is not part of the sources.  Turning on
    applies the default effect name and sets the on-state. *)
Definition async_turn_on : Async C unit :=
  _apply_effect DEFAULT_EFFECT;;
  set_is_on true.

(** Modelled from the spec: [light.py] is not part of the sources.  Turning off
    applies the all-off effect name and clears the on-state. *)
Definition async_turn_off : Async C unit :=
  _apply_effect ALL_OFF_EFFECT;;
  set_is_on false.

(** Modelled from the spec: [light.py] is not part of the sources.  The first
    half of an update: the list of effect names is fetched only while the
    entity's list is empty. *)
Definition refresh_effect_list : Async C unit :=
  l ← get_self;
  match effect_list l with
  | [] =>
      effects ← async_add_executor_job job_get_effects get_effects;
      set_effect_list (names effects)
  | _ :: _ => mret tt
  end.

(** Modelled from the spec: [light.py] is not part of the sources.  An update
    refreshes the effect list as above, then polls the current effect, records
    its name (as [test_update] reads it back) and sets the on-state by
    comparing the name with the all-off name.  The executor is asked for the
    effects first and for the current effect second, the order in which the
    tests script its answers. *)
Definition async_update : Async C unit :=
  refresh_effect_list;;
  current ← async_add_executor_job job_get_current_effect get_current_effect;
  set_effect (Some (name (attributes current)));;
  set_is_on (negb (String.eqb (name (attributes current)) ALL_OFF_EFFECT)).

(** Successive update cycles.  Between two cycles the source may have become
    anything: each cycle runs against the client state the environment
    supplies for it.  An exception ends the cycle it occurs in, not the
    entity: the host calls the next update on the same object. *)
Fixpoint update_cycles (sources : list C) (w : World C) : World C :=
  match sources with
  | [] => w
  | c :: later =>
      let w0 := {| self := self w; _client := c; executor_jobs := executor_jobs w |} in
      update_cycles later (fst (async_update w0))
  end.

End Light.

(** A scripted client in the manner of the tests' mocks: it answers with the
    effects and the current effect it was set up with, and accepts every
    effect name. *)
Record MockClient : Type := {
  mock_effects : list Effect;
  mock_current_effect : Effect
}.

#[export] Instance MockClient_client : SignalRGBClient MockClient := {
  get_effects c := (c, Returns (mock_effects c));
  get_current_effect c := (c, Returns (mock_current_effect c));
  apply_effect_by_name _ c := (c, Returns tt)
}.

Definition named (n : string) : Effect := {| attributes := {| name := n |} |}.

(** A source that lists no effect at all and reports the given current one. *)
Definition empty_source (current : string) : MockClient :=
  {| mock_effects := []; mock_current_effect := named current |}.

(** Two effect names for worked examples; the properties below hold for any. *)
Definition sample_constants : Constants :=
  {| DEFAULT_EFFECT := "Solid Color"; ALL_OFF_EFFECT := "All Off" |}.

(** A light as a test fixture has it before anything ran, wired to a mock. *)
Definition mock_light (effects : list Effect) (current : Effect) : World MockClient :=
  {| self := {| is_on := false; effect := None; effect_list := [] |};
     _client := {| mock_effects := effects; mock_current_effect := current |};
     executor_jobs := [] |}.

End SignalRGB.

(** * Properties of the sensor platform *)

Module SensorProperties.
Import AOSmith.

(** ** Iterating a coordinator's dataset *)

Lemma elem_of_dict_keys {V : Type} (d : gmap string V) (k : string) :
  k ∈ dict_keys d ↔ k ∈ dom d.
Proof.
  unfold dict_keys. rewrite elem_of_dom, list_elem_of_fmap. split.
  - intros [[k' v] [-> Hin]]. apply elem_of_map_to_list in Hin. by exists v.
  - intros [v Hv]. exists (k, v). split; [done|]. by apply elem_of_map_to_list.
Qed.

Lemma NoDup_dict_keys {V : Type} (d : gmap string V) : NoDup (dict_keys d).
Proof. apply NoDup_fst_map_to_list. Qed.

Lemma length_dict_keys {V : Type} (d : gmap string V) : length (dict_keys d) = size d.
Proof. unfold dict_keys. by rewrite length_fmap, length_map_to_list. Qed.

Lemma bind_singleton_fmap {A B : Type} (f : A → B) (l : list A) :
  (l ≫= λ x, [f x]) = f <$> l.
Proof. induction l as [|x l IH]; [done|]. cbn. by rewrite <- IH. Qed.

(** ** The entities a setup creates *)

Lemma status_entities_fmap (h : Heap) (data : AOSmithData) :
  status_entities h data =
  (λ j, StatusSensor
          (AOSmithStatusSensorEntity.__init__ (status_coordinator data)
             hot_water_availability j))
  <$> dict_keys (AOSmithStatusCoordinator.data
                   (status_coordinators h (status_coordinator data))).
Proof.
  unfold status_entities, STATUS_ENTITY_DESCRIPTIONS. cbn.
  by rewrite app_nil_r, bind_singleton_fmap.
Qed.

Lemma energy_entities_fmap (h : Heap) (data : AOSmithData) :
  energy_entities h data =
  (λ j, EnergySensor
          (AOSmithEnergySensorEntity.__init__ (energy_coordinator data) j))
  <$> dict_keys (AOSmithStatusCoordinator.data
                   (status_coordinators h (status_coordinator data))).
Proof. unfold energy_entities. apply bind_singleton_fmap. Qed.

Lemma status_init_inj (c : ref) (d : AOSmithStatusSensorEntityDescription) :
  Inj (=) (=) (λ j, StatusSensor (AOSmithStatusSensorEntity.__init__ c d j)).
Proof. intros j1 j2 Heq. by injection Heq. Qed.

Lemma energy_init_inj (c : ref) :
  Inj (=) (=) (λ j, EnergySensor (AOSmithEnergySensorEntity.__init__ c j)).
Proof. intros j1 j2 Heq. by injection Heq. Qed.

Lemma energy_junction_ids_status (c : ref) (d : AOSmithStatusSensorEntityDescription)
    (ids : list string) :
  energy_junction_ids
    ((λ j, StatusSensor (AOSmithStatusSensorEntity.__init__ c d j)) <$> ids) = [].
Proof. induction ids as [|j ids IH]; [done|]. cbn. apply IH. Qed.

Lemma energy_junction_ids_energy (c : ref) (ids : list string) :
  energy_junction_ids
    ((λ j, EnergySensor (AOSmithEnergySensorEntity.__init__ c j)) <$> ids) = ids.
Proof.
  induction ids as [|j ids IH]; [done|].
  cbn. f_equal. apply IH.
Qed.

(** ** Unique identifiers *)

Lemma append_prefix_ne (p s1 s2 : string) : s1 ≠ s2 → p +:+ s1 ≠ p +:+ s2.
Proof. intros Hne Heq. apply Hne. by apply (String.app_inj p). Qed.

(** C6, as the code has it: a sensor's unique identifier is its description
    key (for the energy sensor, the fixed name [energy_usage]), then an
    underscore, then the device identifier.  It does not depend on the
    coordinator, and two entities of the same description (or two energy
    sensors) built from distinct device identifiers have distinct unique
    identifiers. *)
Theorem unique_id_key_underscore_junction_id :
  (∀ (c : ref) (d : AOSmithStatusSensorEntityDescription) (j : string),
     AOSmithStatusSensorEntity._attr_unique_id
       (AOSmithStatusSensorEntity.__init__ c d j) = key d +:+ "_" +:+ j) ∧
  (∀ (c : ref) (j : string),
     AOSmithEnergySensorEntity._attr_unique_id
       (AOSmithEnergySensorEntity.__init__ c j) = "energy_usage" +:+ "_" +:+ j) ∧
  (∀ (c1 c2 : ref) (d : AOSmithStatusSensorEntityDescription) (j1 j2 : string),
     j1 ≠ j2 →
     AOSmithStatusSensorEntity._attr_unique_id
       (AOSmithStatusSensorEntity.__init__ c1 d j1) ≠
     AOSmithStatusSensorEntity._attr_unique_id
       (AOSmithStatusSensorEntity.__init__ c2 d j2)) ∧
  (∀ (c1 c2 : ref) (j1 j2 : string),
     j1 ≠ j2 →
     AOSmithEnergySensorEntity._attr_unique_id
       (AOSmithEnergySensorEntity.__init__ c1 j1) ≠
     AOSmithEnergySensorEntity._attr_unique_id
       (AOSmithEnergySensorEntity.__init__ c2 j2)).
Proof.
  repeat split.
  - intros c1 c2 d j1 j2 Hne. cbn.
    apply append_prefix_ne. by apply append_prefix_ne.
  - intros c1 c2 j1 j2 Hne. cbn [AOSmithEnergySensorEntity._attr_unique_id
      AOSmithEnergySensorEntity.__init__].
    by apply append_prefix_ne.
Qed.

(** C6, on two water heaters of one account: the identifiers of their
    hot-water sensors differ, and so do those of their energy sensors. *)
Lemma unique_id_two_devices :
  AOSmithStatusSensorEntity._attr_unique_id
    (AOSmithStatusSensorEntity.__init__ 0 hot_water_availability "junction-1") ≠
  AOSmithStatusSensorEntity._attr_unique_id
    (AOSmithStatusSensorEntity.__init__ 0 hot_water_availability "junction-2") ∧
  AOSmithEnergySensorEntity._attr_unique_id
    (AOSmithEnergySensorEntity.__init__ 1 "junction-1") ≠
  AOSmithEnergySensorEntity._attr_unique_id
    (AOSmithEnergySensorEntity.__init__ 1 "junction-2").
Proof.
  destruct unique_id_key_underscore_junction_id as (_ & _ & Hstatus & Henergy).
  split.
  - apply Hstatus. discriminate.
  - apply Henergy. discriminate.
Defined.

(** C6, as the specification words it, fails: the identifier is not the key
    followed directly by the device identifier. *)
Lemma unique_id_not_key_then_junction_id :
  AOSmithStatusSensorEntity._attr_unique_id
    (AOSmithStatusSensorEntity.__init__ 0 hot_water_availability "junction-1")
  = "hot_water_availability_junction-1" ∧
  key hot_water_availability +:+ "junction-1" = "hot_water_availabilityjunction-1" ∧
  AOSmithStatusSensorEntity._attr_unique_id
    (AOSmithStatusSensorEntity.__init__ 0 hot_water_availability "junction-1")
  ≠ key hot_water_availability +:+ "junction-1".
Proof. repeat split. discriminate. Qed.

(** ** Reading a status sensor *)

(** C7: a read of the status sensor's native value is the description's
    extraction function applied to the entry the coordinator's current dataset
    holds for the entity's device.  The read takes the heap as it is at the
    time of the read and gives back the value only: nothing is cached and the
    entity is not changed.  When the extraction function yields no value, the
    read returns normally with [None]; it does not raise. *)
Theorem status_native_value_latest_snapshot
    (self : AOSmithStatusSensorEntity.t) (h : Heap) (device : AOSmithDevice) :
  AOSmithStatusCoordinator.data
    (status_coordinators h
       (AOSmithEntity.coordinator (AOSmithStatusSensorEntity.base self)))
    !! AOSmithEntity.junction_id (AOSmithStatusSensorEntity.base self) = Some device →
  AOSmithStatusSensorEntity.native_value self h =
    Returns (value_fn (AOSmithStatusSensorEntity.entity_description self) device) ∧
  (value_fn (AOSmithStatusSensorEntity.entity_description self) device = None →
   AOSmithStatusSensorEntity.native_value self h = Returns None).
Proof.
  intros Hdev.
  assert (AOSmithStatusSensorEntity.native_value self h =
          Returns (value_fn (AOSmithStatusSensorEntity.entity_description self) device))
    as Hread.
  { unfold AOSmithStatusSensorEntity.native_value, AOSmithEntity.device,
      AOSmithEntity.subscript. by rewrite Hdev. }
  split; [exact Hread|]. intros Hnone. by rewrite Hread, Hnone.
Qed.

(** C7, on a heater whose snapshot reports 75 percent and on the next
    snapshot, which reports nothing: the reads are 75, then [None]. *)
Lemma status_native_value_reads :
  let self := AOSmithStatusSensorEntity.__init__ 0 hot_water_availability "junction-1" in
  AOSmithStatusSensorEntity.native_value self
    (heap_of {[ "junction-1" := device_with (Some 75%Z) ]} ∅)
  = Returns (Some (IntValue 75)) ∧
  AOSmithStatusSensorEntity.native_value self
    (heap_of {[ "junction-1" := device_with None ]} ∅)
  = Returns None.
Proof.
  intros self. split.
  - refine (proj1 (status_native_value_latest_snapshot self _
                     (device_with (Some 75%Z)) _)).
    vm_compute. reflexivity.
  - refine (proj2 (status_native_value_latest_snapshot self _
                     (device_with None) _) _).
    + vm_compute. reflexivity.
    + reflexivity.
Defined.

(** ** Reading the energy sensor *)

(** C8: the energy sensor's native value is the reading the energy
    coordinator's current dataset holds for the entity's device, as it is.
    Nothing compares a reading with an earlier one: whatever two readings two
    successive snapshots hold, each read returns the reading of its snapshot.
    The class tags the value with kilowatt-hours, a suggested display precision
    of 1 and the total-increasing state class. *)
Theorem energy_native_value_unvalidated
    (self : AOSmithEnergySensorEntity.t) (earlier later : Heap) (r1 r2 : float) :
  AOSmithEnergyCoordinator.data
    (energy_coordinators earlier
       (AOSmithEntity.coordinator (AOSmithEnergySensorEntity.base self)))
    !! AOSmithEntity.junction_id (AOSmithEnergySensorEntity.base self) = Some r1 →
  AOSmithEnergyCoordinator.data
    (energy_coordinators later
       (AOSmithEntity.coordinator (AOSmithEnergySensorEntity.base self)))
    !! AOSmithEntity.junction_id (AOSmithEnergySensorEntity.base self) = Some r2 →
  AOSmithEnergySensorEntity.native_value self earlier = Returns r1 ∧
  AOSmithEnergySensorEntity.native_value self later = Returns r2 ∧
  AOSmithEnergySensorEntity._attr_native_unit_of_measurement =
    UnitOfEnergy.KILO_WATT_HOUR ∧
  AOSmithEnergySensorEntity._attr_suggested_display_precision = 1%Z ∧
  AOSmithEnergySensorEntity._attr_state_class = TOTAL_INCREASING.
Proof.
  intros H1 H2.
  unfold AOSmithEnergySensorEntity.native_value, AOSmithEntity.energy_usage,
    AOSmithEntity.subscript.
  rewrite H1, H2. repeat split.
Qed.

(** C8, on a reading that goes down from 12.5 to 3: both are shown as read. *)
Lemma energy_native_value_decreasing :
  let self := AOSmithEnergySensorEntity.__init__ 1 "junction-1" in
  AOSmithEnergySensorEntity.native_value self
    (heap_of ∅ {[ "junction-1" := 12.5%float ]}) = Returns 12.5%float ∧
  AOSmithEnergySensorEntity.native_value self
    (heap_of ∅ {[ "junction-1" := 3%float ]}) = Returns 3%float.
Proof.
  intros self.
  assert (AOSmithEnergySensorEntity.native_value self
            (heap_of ∅ {[ "junction-1" := 12.5%float ]}) = Returns 12.5%float ∧
          AOSmithEnergySensorEntity.native_value self
            (heap_of ∅ {[ "junction-1" := 3%float ]}) = Returns 3%float ∧
          AOSmithEnergySensorEntity._attr_native_unit_of_measurement =
    UnitOfEnergy.KILO_WATT_HOUR ∧
          AOSmithEnergySensorEntity._attr_suggested_display_precision = 1%Z ∧
          AOSmithEnergySensorEntity._attr_state_class = TOTAL_INCREASING)
    as (Hfirst & Hsecond & _).
  { apply energy_native_value_unvalidated; vm_compute; reflexivity. }
  split; [exact Hfirst | exact Hsecond].
Defined.

(** ** Setting the platform up *)

(** C9: the setup calls the host's callback twice, first with the status
    sensors and then with the energy sensors.  The status sensors are, each
    exactly once, the entities built from a description of
    [STATUS_ENTITY_DESCRIPTIONS] and a device identifier of the status
    coordinator's dataset; the energy sensors are, each exactly once, the
    entities built from a device identifier of that dataset. *)
Theorem async_setup_entry_one_entity_per_pair (h : Heap) (entry : AOSmithConfigEntry) :
  let data := runtime_data entry in
  let devices :=
    AOSmithStatusCoordinator.data (status_coordinators h (status_coordinator data)) in
  ∃ status_batch energy_batch : list SensorEntity,
    (∀ (Host : Type) (async_add_entities : list SensorEntity → Host → Host)
       (host : Host),
       async_setup_entry async_add_entities h entry host =
       async_add_entities energy_batch (async_add_entities status_batch host)) ∧
    NoDup status_batch ∧
    length status_batch = length STATUS_ENTITY_DESCRIPTIONS * size devices ∧
    (∀ e, e ∈ status_batch ↔
          ∃ d j, d ∈ STATUS_ENTITY_DESCRIPTIONS ∧ j ∈ dom devices ∧
                 e = StatusSensor
                       (AOSmithStatusSensorEntity.__init__ (status_coordinator data) d j)) ∧
    NoDup energy_batch ∧
    length energy_batch = size devices ∧
    (∀ e, e ∈ energy_batch ↔
          ∃ j, j ∈ dom devices ∧
               e = EnergySensor
                     (AOSmithEnergySensorEntity.__init__ (energy_coordinator data) j)).
Proof.
  intros data devices.
  exists (status_entities h data), (energy_entities h data).
  split; [done|].
  rewrite status_entities_fmap, energy_entities_fmap. fold devices.
  split; [apply NoDup_fmap_2; [apply status_init_inj | apply NoDup_dict_keys]|].
  split; [rewrite length_fmap, length_dict_keys; cbn; lia|].
  split.
  { intros e. rewrite list_elem_of_fmap. split.
    - intros (j & -> & Hj). exists hot_water_availability, j.
      split; [apply list_elem_of_here|]. split; [by apply elem_of_dict_keys | done].
    - intros (d & j & Hd & Hj & ->). exists j.
      apply list_elem_of_singleton in Hd as ->.
      split; [done | by apply elem_of_dict_keys]. }
  split; [apply NoDup_fmap_2; [apply energy_init_inj | apply NoDup_dict_keys]|].
  split; [by rewrite length_fmap, length_dict_keys|].
  intros e. rewrite list_elem_of_fmap. split.
  - intros (j & -> & Hj). exists j. split; [by apply elem_of_dict_keys | done].
  - intros (j & Hj & ->). exists j. split; [done | by apply elem_of_dict_keys].
Qed.

(** C9, on an account with two heaters: the host is given two status sensors,
    then two energy sensors. *)
Lemma async_setup_entry_two_devices :
  async_setup_entry record_batch
    (heap_of {[ "junction-1" := device_with (Some 50%Z);
                "junction-2" := device_with None ]} ∅)
    sample_entry []
  = [ [ StatusSensor (AOSmithStatusSensorEntity.__init__ 0 hot_water_availability "junction-1");
        StatusSensor (AOSmithStatusSensorEntity.__init__ 0 hot_water_availability "junction-2") ];
      [ EnergySensor (AOSmithEnergySensorEntity.__init__ 1 "junction-1");
        EnergySensor (AOSmithEnergySensorEntity.__init__ 1 "junction-2") ] ].
Proof. vm_compute. reflexivity. Qed.

(** C10: the device identifiers of the energy sensors a setup registers are
    those of the status coordinator's dataset, whatever the energy
    coordinator's dataset holds.  An identifier with a device but no energy
    reading gets an energy sensor; an identifier with an energy reading but no
    device gets none. *)
Theorem energy_sensors_enumerated_from_status (h : Heap) (entry : AOSmithConfigEntry) :
  let data := runtime_data entry in
  let devices :=
    AOSmithStatusCoordinator.data (status_coordinators h (status_coordinator data)) in
  let readings :=
    AOSmithEnergyCoordinator.data (energy_coordinators h (energy_coordinator data)) in
  let registered := concat (async_setup_entry record_batch h entry []) in
  energy_junction_ids registered = dict_keys devices ∧
  (∀ j, j ∈ dom devices → j ∉ dom readings →
        EnergySensor (AOSmithEnergySensorEntity.__init__ (energy_coordinator data) j)
          ∈ registered) ∧
  (∀ j, j ∈ dom readings → j ∉ dom devices →
        j ∉ energy_junction_ids registered).
Proof.
  intros data devices readings registered.
  assert (registered =
          (status_entities h data ++ energy_entities h data)%list) as Hreg.
  { unfold registered, async_setup_entry, record_batch. cbn [concat app].
    by rewrite app_nil_r. }
  assert (energy_junction_ids registered = dict_keys devices) as Hids.
  { rewrite Hreg. unfold energy_junction_ids. rewrite omap_app.
    rewrite status_entities_fmap, energy_entities_fmap. fold devices.
    fold (energy_junction_ids
            ((λ j, StatusSensor (AOSmithStatusSensorEntity.__init__
                                   (status_coordinator data) hot_water_availability j))
             <$> dict_keys devices)).
    rewrite energy_junction_ids_status.
    apply energy_junction_ids_energy. }
  split; [exact Hids|]. split.
  - intros j Hj _. rewrite Hreg. apply elem_of_app. right.
    rewrite energy_entities_fmap. apply list_elem_of_fmap.
    exists j. split; [done | by apply elem_of_dict_keys].
  - intros j _ Hj. rewrite Hids. by rewrite elem_of_dict_keys.
Qed.

(** C10, on a heap where the status coordinator knows [junction-1] only and
    the energy coordinator holds a reading for [junction-2] only: the one
    energy sensor registered is that of [junction-1]. *)
Lemma energy_sensors_enumerated_example :
  energy_junction_ids
    (concat (async_setup_entry record_batch
               (heap_of {[ "junction-1" := device_with (Some 50%Z) ]}
                        {[ "junction-2" := 7.25%float ]})
               sample_entry []))
  = [ "junction-1" ].
Proof.
  destruct (energy_sensors_enumerated_from_status
              (heap_of {[ "junction-1" := device_with (Some 50%Z) ]}
                       {[ "junction-2" := 7.25%float ]})
              sample_entry) as [Hids _].
  rewrite Hids. vm_compute. reflexivity.
Defined.

(** ** Further properties of the platform *)

Lemma unique_id_status_entities (h : Heap) (data : AOSmithData) :
  unique_id <$> status_entities h data =
  (λ j, "hot_water_availability_" +:+ j)
  <$> dict_keys (AOSmithStatusCoordinator.data
                   (status_coordinators h (status_coordinator data))).
Proof. rewrite status_entities_fmap, <- list_fmap_compose. reflexivity. Qed.

Lemma unique_id_energy_entities (h : Heap) (data : AOSmithData) :
  unique_id <$> energy_entities h data =
  (λ j, "energy_usage_" +:+ j)
  <$> dict_keys (AOSmithStatusCoordinator.data
                   (status_coordinators h (status_coordinator data))).
Proof. rewrite energy_entities_fmap, <- list_fmap_compose. reflexivity. Qed.

Lemma registered_entities (h : Heap) (entry : AOSmithConfigEntry) :
  concat (async_setup_entry record_batch h entry []) =
  status_entities h (runtime_data entry) ++ energy_entities h (runtime_data entry).
Proof.
  unfold async_setup_entry, record_batch. cbn [concat app]. by rewrite app_nil_r.
Qed.

(** X1: the unique identifiers of all the entities one setup registers,
    status and energy sensors together, are pairwise distinct. *)
Theorem registered_unique_ids_distinct (h : Heap) (entry : AOSmithConfigEntry) :
  NoDup (unique_id <$> concat (async_setup_entry record_batch h entry [])).
Proof.
  rewrite registered_entities, fmap_app.
  rewrite unique_id_status_entities, unique_id_energy_entities.
  apply NoDup_app. split; [|split].
  - apply NoDup_fmap_2; [apply String.app_inj | apply NoDup_dict_keys].
  - intros uid Hstatus Henergy.
    apply list_elem_of_fmap in Hstatus as (j1 & -> & _).
    apply list_elem_of_fmap in Henergy as (j2 & Heq & _).
    cbn in Heq. discriminate Heq.
  - apply NoDup_fmap_2; [apply String.app_inj | apply NoDup_dict_keys].
Qed.

Lemma dict_keys_empty_iff {V : Type} (d : gmap string V) : dict_keys d = [] ↔ d = ∅.
Proof.
  unfold dict_keys. rewrite <- map_to_list_empty_iff.
  split; [apply fmap_nil_inv | by intros ->].
Qed.

(** X2: a setup hands the host two empty batches exactly when the status
    coordinator's dataset holds no device; the callback is called twice even
    then. *)
Theorem async_setup_entry_no_device (h : Heap) (entry : AOSmithConfigEntry) :
  async_setup_entry record_batch h entry [] = [[]; []] ↔
  AOSmithStatusCoordinator.data
    (status_coordinators h (status_coordinator (runtime_data entry))) = ∅.
Proof.
  unfold async_setup_entry, record_batch. cbn [app].
  rewrite status_entities_fmap, energy_entities_fmap.
  rewrite <- dict_keys_empty_iff. split.
  - intros Heq. injection Heq as _ Henergy. by apply fmap_nil_inv in Henergy.
  - by intros ->.
Qed.

Lemma dict_keys_Permutation {V W : Type} (d : gmap string V) (d' : gmap string W) :
  dom d = dom d' → dict_keys d ≡ₚ dict_keys d'.
Proof.
  intros Hdom. apply NoDup_Permutation; [apply NoDup_dict_keys..|].
  intros k. by rewrite !elem_of_dict_keys, Hdom.
Qed.

(** X3: the entities a setup creates depend only on which device identifiers
    the status coordinator's dataset holds.  Two heaps whose status datasets
    have the same identifiers give the same status sensors and the same energy
    sensors, in some order, whatever the devices' states and whatever the
    energy coordinator holds. *)
Theorem async_setup_entry_depends_on_ids (h h' : Heap) (entry : AOSmithConfigEntry) :
  dom (AOSmithStatusCoordinator.data
         (status_coordinators h (status_coordinator (runtime_data entry)))) =
  dom (AOSmithStatusCoordinator.data
         (status_coordinators h' (status_coordinator (runtime_data entry)))) →
  status_entities h (runtime_data entry) ≡ₚ status_entities h' (runtime_data entry) ∧
  energy_entities h (runtime_data entry) ≡ₚ energy_entities h' (runtime_data entry).
Proof.
  intros Hdom. rewrite !status_entities_fmap, !energy_entities_fmap.
  pose proof (dict_keys_Permutation _ _ Hdom) as Hperm.
  split; by apply fmap_Permutation.
Qed.

(** X3, on a heater seen at two moments: half full without energy reading,
    then with unknown level and a reading. *)
Lemma async_setup_entry_same_ids :
  status_entities (heap_of {[ "junction-1" := device_with (Some 50%Z) ]} ∅)
    (runtime_data sample_entry)
  ≡ₚ status_entities (heap_of {[ "junction-1" := device_with None ]}
                        {[ "junction-1" := 7.25%float ]})
       (runtime_data sample_entry).
Proof.
  refine (proj1 (async_setup_entry_depends_on_ids _ _ sample_entry _)).
  cbn. by rewrite !dom_singleton_L.
Defined.

(** X4: every status sensor a setup creates has its device in the dataset it
    was created from: read against that same heap, its native value is the
    device's hot-water level as an integer, or [None] when the device reports
    none.  The read does not raise and never gives a string. *)
Theorem registered_status_sensor_reads (h : Heap) (entry : AOSmithConfigEntry)
    (s : AOSmithStatusSensorEntity.t) :
  StatusSensor s ∈ concat (async_setup_entry record_batch h entry []) →
  ∃ device : AOSmithDevice,
    AOSmithStatusCoordinator.data
      (status_coordinators h (status_coordinator (runtime_data entry)))
      !! AOSmithEntity.junction_id (AOSmithStatusSensorEntity.base s) = Some device ∧
    AOSmithStatusSensorEntity.native_value s h =
      Returns (IntValue <$> hot_water_status (status device)).
Proof.
  rewrite registered_entities, elem_of_app.
  rewrite status_entities_fmap, energy_entities_fmap, !list_elem_of_fmap.
  intros [(j & Heq & Hj) | (j & Heq & _)]; [|discriminate Heq].
  injection Heq as ->.
  apply elem_of_dict_keys, elem_of_dom in Hj as [device Hdevice].
  exists device. split; [exact Hdevice|].
  unfold AOSmithStatusSensorEntity.native_value, AOSmithEntity.device,
    AOSmithEntity.subscript.
  cbn. by rewrite Hdevice.
Qed.

(** X4, on an account with one heater at 50 percent. *)
Lemma registered_status_sensor_reads_50 :
  ∃ device : AOSmithDevice,
    ({[ "junction-1" := device_with (Some 50%Z) ]} : gmap string AOSmithDevice)
      !! "junction-1" = Some device ∧
    AOSmithStatusSensorEntity.native_value
      (AOSmithStatusSensorEntity.__init__ 0 hot_water_availability "junction-1")
      (heap_of {[ "junction-1" := device_with (Some 50%Z) ]} ∅)
    = Returns (IntValue <$> hot_water_status (status device)).
Proof.
  refine (registered_status_sensor_reads
            (heap_of {[ "junction-1" := device_with (Some 50%Z) ]} ∅) sample_entry
            (AOSmithStatusSensorEntity.__init__ 0 hot_water_availability "junction-1")
            _).
  vm_compute. apply list_elem_of_here.
Defined.

(** ** When a unique identifier determines its parts *)

Lemma list_ascii_of_string_app (s1 s2 : string) :
  String.list_ascii_of_string (s1 +:+ s2) =
  String.list_ascii_of_string s1 ++ String.list_ascii_of_string s2.
Proof.
  induction s1 as [|a s1 IH]; [done|].
  change (a :: String.list_ascii_of_string (s1 +:+ s2) =
          a :: (String.list_ascii_of_string s1 ++ String.list_ascii_of_string s2)).
  by rewrite IH.
Qed.

Lemma list_ascii_of_string_inj : Inj (=) (=) String.list_ascii_of_string.
Proof.
  intros s1 s2 Heq.
  rewrite <- (String.string_of_list_ascii_of_string s1),
          <- (String.string_of_list_ascii_of_string s2).
  by rewrite Heq.
Qed.

Lemma has_underscore_false (s : string) :
  has_underscore s = false → "_"%char ∉ String.list_ascii_of_string s.
Proof. unfold has_underscore. apply bool_decide_eq_false. Qed.

(** X5: when the device identifiers contain no underscore, the unique
    identifier of a status sensor determines both the description key and the
    device identifier: two status sensors with the same unique identifier have
    the same key and the same device. *)
Theorem unique_id_determines_key_and_junction_id
    (c1 c2 : ref) (d1 d2 : AOSmithStatusSensorEntityDescription) (j1 j2 : string) :
  has_underscore j1 = false →
  has_underscore j2 = false →
  AOSmithStatusSensorEntity._attr_unique_id
    (AOSmithStatusSensorEntity.__init__ c1 d1 j1) =
  AOSmithStatusSensorEntity._attr_unique_id
    (AOSmithStatusSensorEntity.__init__ c2 d2 j2) →
  key d1 = key d2 ∧ j1 = j2.
Proof.
  intros Hj1%has_underscore_false Hj2%has_underscore_false Heq. cbn in Heq.
  apply (f_equal String.list_ascii_of_string) in Heq.
  rewrite !list_ascii_of_string_app in Heq. cbn in Heq.
  apply not_elem_of_app_cons_inv_r in Heq as (Hkey & _ & Hjunction); [|done..].
  split; by apply list_ascii_of_string_inj.
Qed.

(** X5, on two identifiers without underscore, and what happens with one:
    key [a_b] with device [c] and key [a] with device [b_c] share the
    identifier [a_b_c]. *)
Lemma unique_id_determines_parts_example :
  key hot_water_availability = key hot_water_availability ∧ "junction-1" = "junction-1".
Proof.
  apply (unique_id_determines_key_and_junction_id 0 1
           hot_water_availability hot_water_availability "junction-1" "junction-1");
    reflexivity.
Defined.

Lemma unique_id_underscore_collision :
  let d (k : string) :=
    {| key := k; translation_key := k; native_unit_of_measurement := None;
       value_fn := λ _, None |} in
  AOSmithStatusSensorEntity._attr_unique_id
    (AOSmithStatusSensorEntity.__init__ 0 (d "a_b") "c") =
  AOSmithStatusSensorEntity._attr_unique_id
    (AOSmithStatusSensorEntity.__init__ 0 (d "a") "b_c").
Proof. reflexivity. Qed.

End SensorProperties.

(** * Properties of the light entity *)

Module LightProperties.
Import SignalRGB.

Section Light.
Context {C : Type} `{!SignalRGBClient C} `{!Constants}.

Implicit Types (w : World C) (l : SignalRGBLight).

(** ** One step of each kind *)

Lemma bind_returns {A B : Type} (m : Async C A) (k : A → Async C B) w w' (a : A) :
  m w = (w', Returns a) → (m ≫= k) w = k a w'.
Proof. intros Hm. unfold mbind, Async_bind. by rewrite Hm. Qed.

Lemma bind_raises {A B : Type} (m : Async C A) (k : A → Async C B) w w' e :
  m w = (w', Raises e) → (m ≫= k) w = (w', Raises e).
Proof. intros Hm. unfold mbind, Async_bind. by rewrite Hm. Qed.

Lemma set_is_on_run (b : bool) w :
  set_is_on b w =
  ({| self := {| is_on := b; effect := effect (self w);
                 effect_list := effect_list (self w) |};
      _client := _client w; executor_jobs := executor_jobs w |}, Returns tt).
Proof. reflexivity. Qed.

Lemma set_effect_run (e : option string) w :
  set_effect e w =
  ({| self := {| is_on := is_on (self w); effect := e;
                 effect_list := effect_list (self w) |};
      _client := _client w; executor_jobs := executor_jobs w |}, Returns tt).
Proof. reflexivity. Qed.

Lemma set_effect_list_run (names : list string) w :
  set_effect_list names w =
  ({| self := {| is_on := is_on (self w); effect := effect (self w);
                 effect_list := names |};
      _client := _client w; executor_jobs := executor_jobs w |}, Returns tt).
Proof. reflexivity. Qed.

Lemma async_add_executor_job_run {R : Type} (job : Job)
    (target : C → C * Outcome R) w c' (r : Outcome R) :
  target (_client w) = (c', r) →
  async_add_executor_job job target w =
  ({| self := self w; _client := c'; executor_jobs := executor_jobs w ++ [job] |}, r).
Proof. intros Ht. unfold async_add_executor_job. by rewrite Ht. Qed.

(** ** Applying an effect *)

Lemma apply_effect_returns (effect_name : string) w c' :
  apply_effect_by_name effect_name (_client w) = (c', Returns tt) →
  _apply_effect effect_name w =
  ({| self := {| is_on := is_on (self w); effect := Some effect_name;
                 effect_list := effect_list (self w) |};
      _client := c';
      executor_jobs := executor_jobs w ++ [job_apply_effect_by_name effect_name] |},
   Returns tt).
Proof.
  intros Hcall. unfold _apply_effect.
  erewrite bind_returns by (by apply async_add_executor_job_run).
  apply set_effect_run.
Qed.

Lemma apply_effect_raises (effect_name : string) w c' e :
  apply_effect_by_name effect_name (_client w) = (c', Raises e) →
  _apply_effect effect_name w =
  ({| self := self w; _client := c';
      executor_jobs := executor_jobs w ++ [job_apply_effect_by_name effect_name] |},
   Raises e).
Proof.
  intros Hcall. unfold _apply_effect.
  erewrite bind_raises by (by apply async_add_executor_job_run). done.
Qed.

Lemma apply_effect_jobs (effect_name : string) w :
  executor_jobs (_apply_effect effect_name w).1 =
  executor_jobs w ++ [job_apply_effect_by_name effect_name].
Proof.
  destruct (apply_effect_by_name effect_name (_client w)) as [c' [[]|e]] eqn:Hcall.
  - by rewrite (apply_effect_returns _ _ _ Hcall).
  - by rewrite (apply_effect_raises _ _ _ _ Hcall).
Qed.

(** C5: applying an effect hands exactly one job to the executor, the client's
    [apply_effect_by_name] with that name, and nothing else (no read-back of
    the current effect); when the call returns, the entity's effect attribute
    is that name. *)
Theorem apply_effect_sets_effect_one_call (effect_name : string) w :
  executor_jobs (_apply_effect effect_name w).1 =
    executor_jobs w ++ [job_apply_effect_by_name effect_name] ∧
  ∀ c', apply_effect_by_name effect_name (_client w) = (c', Returns tt) →
        (_apply_effect effect_name w).2 = Returns tt ∧
        effect (self (_apply_effect effect_name w).1) = Some effect_name.
Proof.
  split; [apply apply_effect_jobs|].
  intros c' Hcall. by rewrite (apply_effect_returns _ _ _ Hcall).
Qed.

(** ** Turning on and off *)

Lemma async_turn_on_returns w c' :
  apply_effect_by_name DEFAULT_EFFECT (_client w) = (c', Returns tt) →
  async_turn_on w =
  ({| self := {| is_on := true; effect := Some DEFAULT_EFFECT;
                 effect_list := effect_list (self w) |};
      _client := c';
      executor_jobs := executor_jobs w ++ [job_apply_effect_by_name DEFAULT_EFFECT] |},
   Returns tt).
Proof.
  intros Hcall. unfold async_turn_on.
  erewrite bind_returns by (by apply apply_effect_returns).
  apply set_is_on_run.
Qed.

Lemma async_turn_off_returns w c' :
  apply_effect_by_name ALL_OFF_EFFECT (_client w) = (c', Returns tt) →
  async_turn_off w =
  ({| self := {| is_on := false; effect := Some ALL_OFF_EFFECT;
                 effect_list := effect_list (self w) |};
      _client := c';
      executor_jobs := executor_jobs w ++ [job_apply_effect_by_name ALL_OFF_EFFECT] |},
   Returns tt).
Proof.
  intros Hcall. unfold async_turn_off.
  erewrite bind_returns by (by apply apply_effect_returns).
  apply set_is_on_run.
Qed.

Lemma then_set_is_on_jobs (effect_name : string) (b : bool) w :
  executor_jobs ((_apply_effect effect_name;; set_is_on b) w).1 =
  executor_jobs w ++ [job_apply_effect_by_name effect_name].
Proof.
  destruct (apply_effect_by_name effect_name (_client w)) as [c' [[]|e]] eqn:Hcall.
  - erewrite bind_returns by (by apply apply_effect_returns). done.
  - erewrite bind_raises by (by apply apply_effect_raises). done.
Qed.

(** C3: turning the light on, from any state of the entity and of the client,
    hands exactly one job to the executor, the client's [apply_effect_by_name]
    with the default effect name; when the call returns, the operation returns
    and the on-state is true. *)
Theorem async_turn_on_sets_on_one_call w :
  executor_jobs (async_turn_on w).1 =
    executor_jobs w ++ [job_apply_effect_by_name DEFAULT_EFFECT] ∧
  ∀ c', apply_effect_by_name DEFAULT_EFFECT (_client w) = (c', Returns tt) →
        (async_turn_on w).2 = Returns tt ∧
        is_on (self (async_turn_on w).1) = true.
Proof.
  split; [apply then_set_is_on_jobs|].
  intros c' Hcall. by rewrite (async_turn_on_returns _ _ Hcall).
Qed.

(** C4: turning the light off, from any state of the entity and of the client,
    hands exactly one job to the executor, the client's [apply_effect_by_name]
    with the all-off effect name; when the call returns, the operation returns
    and the on-state is false. *)
Theorem async_turn_off_sets_off_one_call w :
  executor_jobs (async_turn_off w).1 =
    executor_jobs w ++ [job_apply_effect_by_name ALL_OFF_EFFECT] ∧
  ∀ c', apply_effect_by_name ALL_OFF_EFFECT (_client w) = (c', Returns tt) →
        (async_turn_off w).2 = Returns tt ∧
        is_on (self (async_turn_off w).1) = false.
Proof.
  split; [apply then_set_is_on_jobs|].
  intros c' Hcall. by rewrite (async_turn_off_returns _ _ Hcall).
Qed.

(** ** The update cycle *)

Lemma refresh_effect_list_cached w :
  effect_list (self w) ≠ [] → refresh_effect_list w = (w, Returns tt).
Proof.
  intros Hne. unfold refresh_effect_list, mbind, Async_bind, get_self.
  destruct (effect_list (self w)); done.
Qed.

Lemma refresh_effect_list_fetches w c1 (effects : list Effect) :
  effect_list (self w) = [] →
  get_effects (_client w) = (c1, Returns effects) →
  refresh_effect_list w =
  ({| self := {| is_on := is_on (self w); effect := effect (self w);
                 effect_list := names effects |};
      _client := c1; executor_jobs := executor_jobs w ++ [job_get_effects] |},
   Returns tt).
Proof.
  intros Hnil Hcall. unfold refresh_effect_list.
  erewrite bind_returns by reflexivity. rewrite Hnil.
  erewrite bind_returns by (by apply async_add_executor_job_run).
  apply set_effect_list_run.
Qed.

Lemma refresh_effect_list_fetch_raises w c1 e :
  effect_list (self w) = [] →
  get_effects (_client w) = (c1, Raises e) →
  refresh_effect_list w =
  ({| self := self w; _client := c1;
      executor_jobs := executor_jobs w ++ [job_get_effects] |}, Raises e).
Proof.
  intros Hnil Hcall. unfold refresh_effect_list.
  erewrite bind_returns by reflexivity. rewrite Hnil.
  erewrite bind_raises by (by apply async_add_executor_job_run). done.
Qed.

Lemma async_update_polls w w1 c2 (current : Effect) :
  refresh_effect_list w = (w1, Returns tt) →
  get_current_effect (_client w1) = (c2, Returns current) →
  async_update w =
  ({| self := {| is_on := negb (String.eqb (name (attributes current)) ALL_OFF_EFFECT);
                 effect := Some (name (attributes current));
                 effect_list := effect_list (self w1) |};
      _client := c2;
      executor_jobs := executor_jobs w1 ++ [job_get_current_effect] |},
   Returns tt).
Proof.
  intros Hrefresh Hcall. unfold async_update.
  erewrite bind_returns by exact Hrefresh.
  erewrite bind_returns by (by apply async_add_executor_job_run).
  reflexivity.
Qed.

Lemma async_update_poll_raises w w1 c2 e :
  refresh_effect_list w = (w1, Returns tt) →
  get_current_effect (_client w1) = (c2, Raises e) →
  async_update w =
  ({| self := self w1; _client := c2;
      executor_jobs := executor_jobs w1 ++ [job_get_current_effect] |}, Raises e).
Proof.
  intros Hrefresh Hcall. unfold async_update.
  erewrite bind_returns by exact Hrefresh.
  erewrite bind_raises by (by apply async_add_executor_job_run). done.
Qed.

(** Whatever the poll does, the effect list after an update is the one the
    first half left. *)
Lemma async_update_after_refresh w w1 :
  refresh_effect_list w = (w1, Returns tt) →
  effect_list (self (async_update w).1) = effect_list (self w1) ∧
  executor_jobs (async_update w).1 = executor_jobs w1 ++ [job_get_current_effect].
Proof.
  intros Hrefresh.
  destruct (get_current_effect (_client w1)) as [c2 [current|e]] eqn:Hcall.
  - by rewrite (async_update_polls _ _ _ _ Hrefresh Hcall).
  - by rewrite (async_update_poll_raises _ _ _ _ Hrefresh Hcall).
Qed.

Lemma async_update_keeps_cached_list w :
  effect_list (self w) ≠ [] →
  effect_list (self (async_update w).1) = effect_list (self w) ∧
  executor_jobs (async_update w).1 = executor_jobs w ++ [job_get_current_effect].
Proof.
  intros Hne. by apply async_update_after_refresh, refresh_effect_list_cached.
Qed.

Lemma update_cycles_keep_cached_list (later : list C) w :
  effect_list (self w) ≠ [] →
  effect_list (self (update_cycles later w)) = effect_list (self w) ∧
  executor_jobs (update_cycles later w) =
    executor_jobs w ++ replicate (length later) job_get_current_effect.
Proof.
  revert w. induction later as [|c later IH]; intros w Hne.
  - cbn. by rewrite app_nil_r.
  - cbn [update_cycles length replicate].
    set (w0 := {| self := self w; _client := c; executor_jobs := executor_jobs w |}).
    destruct (async_update_keeps_cached_list w0 Hne) as [Hlist Hjobs].
    destruct (IH (async_update w0).1) as [IHlist IHjobs]; [by rewrite Hlist|].
    rewrite IHlist, IHjobs, Hlist, Hjobs. split; [done|].
    by rewrite <- app_assoc.
Qed.

Lemma names_nonempty (effects : list Effect) : effects ≠ [] → names effects ≠ [].
Proof. by destruct effects. Qed.

(** C1: the list of available effects is populated only while it is empty.
    Once the list is not empty, no later update cycle changes it or asks the
    client for its effects again, whatever the client would list by then (an
    empty list included): each such cycle hands the executor the poll of the
    current effect and nothing else.  An update that finds the list empty
    stores the names the client lists; when these are not empty, they are the
    list after every later cycle too. *)
Theorem effect_list_populated_once w :
  (effect_list (self w) ≠ [] →
   ∀ later : list C,
     effect_list (self (update_cycles later w)) = effect_list (self w) ∧
     executor_jobs (update_cycles later w) =
       executor_jobs w ++ replicate (length later) job_get_current_effect) ∧
  (∀ c1 (effects : list Effect),
     effect_list (self w) = [] →
     get_effects (_client w) = (c1, Returns effects) →
     effect_list (self (async_update w).1) = names effects ∧
     (effects ≠ [] →
      ∀ later : list C,
        effect_list (self (update_cycles later (async_update w).1)) = names effects ∧
        executor_jobs (update_cycles later (async_update w).1) =
          executor_jobs w ++ [job_get_effects; job_get_current_effect]
          ++ replicate (length later) job_get_current_effect)).
Proof.
  split.
  - intros Hne later. by apply update_cycles_keep_cached_list.
  - intros c1 effects Hnil Hcall.
    pose proof (refresh_effect_list_fetches _ _ _ Hnil Hcall) as Hrefresh.
    destruct (async_update_after_refresh _ _ Hrefresh) as [Hlist Hjobs].
    cbn in Hlist, Hjobs. split; [exact Hlist|].
    intros Hsome later.
    destruct (update_cycles_keep_cached_list later (async_update w).1)
      as [Hkept Hpolls].
    { rewrite Hlist. by apply names_nonempty. }
    rewrite Hkept, Hpolls, Hlist, Hjobs. split; [done|].
    by rewrite <- !app_assoc.
Qed.

(** C2: in an update cycle in which the client reports its current effect, the
    on-state after the update is false when the reported name is the all-off
    effect name and true when it is any other name. *)
Theorem async_update_on_state w w1 c2 (current : Effect) :
  refresh_effect_list w = (w1, Returns tt) →
  get_current_effect (_client w1) = (c2, Returns current) →
  (async_update w).2 = Returns tt ∧
  (name (attributes current) = ALL_OFF_EFFECT →
   is_on (self (async_update w).1) = false) ∧
  (name (attributes current) ≠ ALL_OFF_EFFECT →
   is_on (self (async_update w).1) = true).
Proof.
  intros Hrefresh Hcall.
  rewrite (async_update_polls _ _ _ _ Hrefresh Hcall). cbn.
  split; [done|]. split.
  - intros ->. by rewrite String.eqb_refl.
  - intros Hne. apply negb_true_iff. by apply String.eqb_neq.
Qed.

(** ** Further properties of the update cycle *)

Lemma async_update_refetches_once w c1 :
  effect_list (self w) = [] →
  get_effects (_client w) = (c1, Returns []) →
  effect_list (self (async_update w).1) = [] ∧
  executor_jobs (async_update w).1 =
    executor_jobs w ++ [job_get_effects; job_get_current_effect].
Proof.
  intros Hnil Hcall.
  pose proof (refresh_effect_list_fetches _ _ _ Hnil Hcall) as Hrefresh.
  destruct (async_update_after_refresh _ _ Hrefresh) as [Hlist Hjobs].
  cbn in Hlist, Hjobs. split; [exact Hlist|].
  by rewrite Hjobs, <- app_assoc.
Qed.

(** X6: an empty answer is not cached.  While the entity's list is empty and
    the client lists no effect, every update cycle asks for the effects again
    before it polls the current effect, and the list stays empty, as the two
    updates of [test_update] have it. *)
Theorem effect_list_refetched_while_empty (sources : list C) w :
  effect_list (self w) = [] →
  Forall (λ c, ∃ c', get_effects c = (c', Returns [])) sources →
  effect_list (self (update_cycles sources w)) = [] ∧
  executor_jobs (update_cycles sources w) =
    executor_jobs w ++ (sources ≫= λ _, [job_get_effects; job_get_current_effect]).
Proof.
  revert w. induction sources as [|c later IH]; intros w Hnil Hsources.
  - cbn. by rewrite app_nil_r.
  - apply Forall_cons in Hsources as [[c1 Hcall] Hlater].
    cbn [update_cycles].
    set (w0 := {| self := self w; _client := c; executor_jobs := executor_jobs w |}).
    destruct (async_update_refetches_once w0 c1 Hnil Hcall) as [Hlist Hjobs].
    destruct (IH (async_update w0).1 Hlist Hlater) as [IHlist IHjobs].
    split; [exact IHlist|].
    rewrite IHjobs, Hjobs. cbn. by rewrite <- app_assoc.
Qed.

(** X7: after an update in which the client reports its current effect, the
    entity's effect attribute is the reported name, and the on-state is false
    exactly when that attribute is the all-off effect name. *)
Theorem async_update_effect_and_on_state w w1 c2 (current : Effect) :
  refresh_effect_list w = (w1, Returns tt) →
  get_current_effect (_client w1) = (c2, Returns current) →
  effect (self (async_update w).1) = Some (name (attributes current)) ∧
  (is_on (self (async_update w).1) = false ↔
   effect (self (async_update w).1) = Some ALL_OFF_EFFECT).
Proof.
  intros Hrefresh Hcall.
  rewrite (async_update_polls _ _ _ _ Hrefresh Hcall). cbn.
  split; [done|].
  rewrite negb_false_iff, String.eqb_eq. split; [by intros -> | congruence].
Qed.

End Light.

(** ** The tests, replayed on the mock client *)

Section Replay.
#[local] Existing Instance sample_constants.

(** C3 on the fixture of [test_turn_on]: the light is on and the executor was
    called once, with [apply_effect_by_name] and the default effect. *)
Lemma test_turn_on :
  let w := (async_turn_on (mock_light [] (named "Rainbow"))).1 in
  is_on (self w) = true ∧
  executor_jobs w = [job_apply_effect_by_name DEFAULT_EFFECT].
Proof.
  intros w.
  destruct (async_turn_on_sets_on_one_call (mock_light [] (named "Rainbow")))
    as [Hjobs Hon].
  destruct (Hon _ eq_refl) as [_ Hison].
  split; [exact Hison | exact Hjobs].
Defined.

(** C4 on the fixture of [test_turn_off], started from a light that is on. *)
Lemma test_turn_off :
  let w := (async_turn_off (async_turn_on (mock_light [] (named "Rainbow"))).1).1 in
  is_on (self w) = false ∧
  executor_jobs w = [job_apply_effect_by_name DEFAULT_EFFECT;
                     job_apply_effect_by_name ALL_OFF_EFFECT].
Proof.
  intros w.
  destruct (async_turn_off_sets_off_one_call
              (async_turn_on (mock_light [] (named "Rainbow"))).1) as [Hjobs Hoff].
  destruct (Hoff _ eq_refl) as [_ Hison].
  split; [exact Hison | exact Hjobs].
Defined.

(** C5 on the fixture of [test_apply_effect]. *)
Lemma test_apply_effect :
  let w := (_apply_effect "Test Effect" (mock_light [] (named "Rainbow"))).1 in
  effect (self w) = Some "Test Effect" ∧
  executor_jobs w = [job_apply_effect_by_name "Test Effect"].
Proof.
  intros w.
  destruct (apply_effect_sets_effect_one_call "Test Effect"
              (mock_light [] (named "Rainbow"))) as [Hjobs Heffect].
  destruct (Heffect _ eq_refl) as [_ Hname].
  split; [exact Hname | exact Hjobs].
Defined.

(** C1 on the fixture of [test_effect_list], followed by two cycles against a
    source that lists nothing: the list fetched first stays, and the later
    cycles only poll the current effect. *)
Lemma test_effect_list :
  let w1 := (async_update (mock_light [named "Test Effect"] (named "Test Effect"))).1 in
  let w3 := update_cycles [empty_source "Test Effect"; empty_source "All Off"] w1 in
  effect_list (self w1) = ["Test Effect"] ∧
  effect_list (self w3) = ["Test Effect"] ∧
  executor_jobs w3 = [job_get_effects; job_get_current_effect;
                      job_get_current_effect; job_get_current_effect].
Proof.
  intros w1 w3.
  destruct (effect_list_populated_once
              (mock_light [named "Test Effect"] (named "Test Effect")))
    as [_ Hfetch].
  destruct (Hfetch _ _ eq_refl eq_refl) as [Hfirst Hlater].
  destruct (Hlater ltac:(discriminate)
              [empty_source "Test Effect"; empty_source "All Off"])
    as [Hlist Hjobs].
  split; [exact Hfirst|].
  split; [exact Hlist | exact Hjobs].
Defined.

(** C2 on the fixture of [test_update]: a current effect of another name turns
    the light on, the all-off effect turns it off. *)
Lemma test_update :
  let w1 := (async_update (mock_light [] (named "Current Effect"))).1 in
  let w2 := (async_update
               {| self := self w1; _client := empty_source ALL_OFF_EFFECT;
                  executor_jobs := executor_jobs w1 |}).1 in
  is_on (self w1) = true ∧ effect (self w1) = Some "Current Effect" ∧
  is_on (self w2) = false.
Proof.
  intros w1 w2.
  edestruct (async_update_on_state (mock_light [] (named "Current Effect")))
    as (_ & _ & Hon); [reflexivity | reflexivity |].
  edestruct (async_update_on_state
               {| self := self w1; _client := empty_source ALL_OFF_EFFECT;
                  executor_jobs := executor_jobs w1 |})
    as (_ & Hoff & _); [reflexivity | reflexivity |].
  split; [apply Hon; discriminate|].
  split; [reflexivity|].
  apply Hoff. reflexivity.
Defined.

(** X6 on the two updates of [test_update], both against a source that lists
    nothing: each asks for the effects and then for the current effect. *)
Lemma test_update_refetches :
  let w := update_cycles [empty_source "Current Effect"; empty_source ALL_OFF_EFFECT]
             (mock_light [] (named "Current Effect")) in
  effect_list (self w) = [] ∧
  executor_jobs w = [job_get_effects; job_get_current_effect;
                     job_get_effects; job_get_current_effect].
Proof.
  intros w.
  apply (effect_list_refetched_while_empty
           [empty_source "Current Effect"; empty_source ALL_OFF_EFFECT]
           (mock_light [] (named "Current Effect"))).
  - reflexivity.
  - repeat constructor; eexists; reflexivity.
Defined.

(** X7 on the first update of [test_update]. *)
Lemma test_update_effect :
  let w1 := (async_update (mock_light [] (named "Current Effect"))).1 in
  effect (self w1) = Some "Current Effect" ∧
  (is_on (self w1) = false ↔ effect (self w1) = Some ALL_OFF_EFFECT).
Proof.
  intros w1.
  edestruct (async_update_effect_and_on_state (mock_light [] (named "Current Effect")))
    as [Heffect Hagree]; [reflexivity | reflexivity |].
  split; [exact Heffect | exact Hagree].
Defined.

End Replay.

End LightProperties.
